(** * sandman_main/controls.py: the control state machine

    A shallow embedding of [Control] (one bed actuator: idle, moving up,
    moving down, cooling down) and the properties of its two public
    methods, [set_desired_state] and [process]. *)

From Stdlib Require Import ZArith String List Bool Lia.
Import ListNotations.

Local Open Scope string_scope.
Local Open Scope Z_scope.

(** ** Names and states *)

(** [Control.Type]: the well-known control names, a [StrEnum]. *)
Inductive Type_ : Set := BACK | LEGS | ELEVATION.

(** The string value of a [Control.Type] member. *)
Definition Type_value (t : Type_) : string :=
  match t with
  | BACK => "back"
  | LEGS => "legs"
  | ELEVATION => "elevation"
  end.

(** [Control.Name = Type | str]. *)
Inductive Name : Set :=
| NameType (t : Type_)
| NameStr (s : string).

(** What string concatenation and an f-string make of a [Name]: a
    [StrEnum] member formats as its value. *)
Definition Name_str (n : Name) : string :=
  match n with
  | NameType t => Type_value t
  | NameStr s => s
  end.

(** [Control.State]. *)
Inductive State : Set := IDLE | MOVE_UP | MOVE_DOWN | COOL_DOWN.

(** [State.label]. *)
Definition label (s : State) : string :=
  match s with
  | IDLE => "idle"
  | MOVE_UP => "move up"
  | MOVE_DOWN => "move down"
  | COOL_DOWN => "cool down"
  end.

(** [==] on enum members. *)
Definition State_eqb (a b : State) : bool :=
  match a, b with
  | IDLE, IDLE | MOVE_UP, MOVE_UP
  | MOVE_DOWN, MOVE_DOWN | COOL_DOWN, COOL_DOWN => true
  | _, _ => false
  end.

(** [list.append] (and [MutableSequence.append]): one more entry at the
    end. *)
Definition append {A : Type} (l : list A) (x : A) : list A := (l ++ [x])%list.

(** ** The log

    The [logging] module keeps a record's message and arguments apart;
    so does the model. *)
Inductive Level : Set := INFO | ERROR.

Inductive LogArg : Set :=
| ArgInt (z : Z)
| ArgStr (s : string).

Record LogRecord : Set := mkLogRecord {
  log_logger : string;
  log_level : Level;
  log_msg : string;
  log_args : list LogArg
}.

(** ** The timer interface

    [timing.Timer] is imported, not defined, by controls.py: it is taken
    as a parameter.  [T] is what the clock shows when a method of the
    control is called; the control only reads it, and whoever owns the
    clock may change it between two calls. *)
Class Timer (T : Type) : Type := {
  Timestamp : Type;
  get_current_time : T -> Timestamp;
  get_time_since_ms : T -> Timestamp -> Z
}.

(** Python exceptions the methods can raise. *)
Inductive Exn : Set :=
| AttributeError (attr : string)
| AssertionError.

Section Control.

Context {T : Type} `{Tm : Timer T}.

(** The private fields of a [Control].  [state_start_time] does not
    exist until [__set_state] assigns it: [None] is the missing
    attribute. *)
Record Control : Type := mkControl {
  logger : string;
  state : State;
  desired_state : State;
  name : Name;
  moving_duration_ms : Z;
  cool_down_duration_ms : Z;
  state_start_time : option Timestamp
}.

(** A control together with the two objects it refers to and shares
    with the rest of the program: its timer and the logging system. *)
Record World : Type := mkWorld {
  ctl : Control;
  timer : T;
  log : list LogRecord
}.

(** *** A state and exception monad over [World] *)

Inductive Result (A : Type) : Type :=
| Ok (a : A) (w : World)
| Raise (e : Exn) (w : World).

Arguments Ok {A} a w.
Arguments Raise {A} e w.

Definition M (A : Type) : Type := World -> Result A.

Definition ret {A} (a : A) : M A := fun w => Ok a w.

Definition bind {A B} (m : M A) (k : A -> M B) : M B :=
  fun w =>
    match m w with
    | Ok a w' => k a w'
    | Raise e w' => Raise e w'
    end.

Definition raise {A} (e : Exn) : M A := fun w => Raise e w.

Definition gets {A} (f : Control -> A) : M A := fun w => Ok (f (ctl w)) w.

Definition modify (f : Control -> Control) : M unit :=
  fun w => Ok tt (mkWorld (f (ctl w)) (timer w) (log w)).

(** The world a call leaves behind, whether it returned or raised. *)
Definition world_of {A} (r : Result A) : World :=
  match r with
  | Ok _ w => w
  | Raise _ w => w
  end.

Notation "x <- m ;; k" := (bind m (fun x => k))
  (at level 61, m at next level, right associativity).
Notation "m ;;; k" := (bind m (fun _ => k))
  (at level 61, right associativity).

(** *** Field assignments *)

Definition set_state_field (s : State) (c : Control) : Control :=
  mkControl (logger c) s (desired_state c) (name c)
            (moving_duration_ms c) (cool_down_duration_ms c)
            (state_start_time c).

Definition set_desired_state_field (s : State) (c : Control) : Control :=
  mkControl (logger c) (state c) s (name c)
            (moving_duration_ms c) (cool_down_duration_ms c)
            (state_start_time c).

Definition set_state_start_time_field (t : Timestamp) (c : Control) : Control :=
  mkControl (logger c) (state c) (desired_state c) (name c)
            (moving_duration_ms c) (cool_down_duration_ms c)
            (Some t).

(** Reading [self.__state_start_time]. *)
Definition read_state_start_time : M Timestamp :=
  fun w =>
    match state_start_time (ctl w) with
    | Some t => Ok t w
    | None => Raise (AttributeError "_Control__state_start_time") w
    end.

(** *** Collaborators *)

Definition logger_log (lvl : Level) (msg : string) (args : list LogArg)
  : M unit :=
  fun w =>
    Ok tt (mkWorld (ctl w) (timer w)
                   (append (log w) (mkLogRecord (logger (ctl w)) lvl msg args))).

Definition timer_get_current_time : M Timestamp :=
  fun w => Ok (get_current_time (timer w)) w.

Definition timer_get_time_since_ms (past : Timestamp) : M Z :=
  fun w => Ok (get_time_since_ms (timer w) past) w.

(** *** The methods *)

(** [Control.__init__]: [tm] and [lg] are the timer and the log as they
    are when the control is built. *)
Definition __init__ (name : Name) (tm : T)
           (moving_duration_ms cool_down_duration_ms : Z)
           (lg : list LogRecord) : World :=
  let logger := "sandman.control." ++ Name_str name in
  world_of
    (logger_log INFO
       "Initialized control with moving duration %d ms and cool down duration %d ms."
       [ArgInt moving_duration_ms; ArgInt cool_down_duration_ms]
       (mkWorld
          (mkControl logger IDLE IDLE name
                     moving_duration_ms cool_down_duration_ms None)
          tm lg)).

(** [Control.set_desired_state]. *)
Definition set_desired_state (s : State) : M unit :=
  if State_eqb s COOL_DOWN then ret tt
  else
    modify (set_desired_state_field s) ;;;
    logger_log INFO "Set desired state to '%s'." [ArgStr (label s)].

(** [Control.__set_state]. *)
Definition __set_state (notifications : list string) (s : State)
  : M (list string) :=
  old <- gets state ;;
  nm <- gets name ;;
  logger_log INFO "State transition from '%s' to '%s'."
             [ArgStr (label old); ArgStr (label s)] ;;;
  let notifications' :=
    match s with
    | MOVE_UP => append notifications ("Raising the " ++ Name_str nm ++ ".")
    | MOVE_DOWN => append notifications ("Lowering the " ++ Name_str nm ++ ".")
    | COOL_DOWN => append notifications (Name_str nm ++ " stopped.")
    | IDLE => notifications
    end in
  modify (set_state_field s) ;;;
  now <- timer_get_current_time ;;
  modify (set_state_start_time_field now) ;;;
  ret notifications'.

(** [Control.__process_idle_state]. *)
Definition __process_idle_state (notifications : list string)
  : M (list string) :=
  d <- gets desired_state ;;
  if State_eqb d IDLE then ret notifications
  else if negb (State_eqb d MOVE_UP) && negb (State_eqb d MOVE_DOWN) then
    modify (set_desired_state_field IDLE) ;;;
    ret notifications
  else __set_state notifications d.

(** [Control.__process_moving_states].  [time_up] is the part after the
    first [if], reached as well when the [match] inside it has no case
    for the desired state. *)
Definition __process_moving_states (notifications : list string)
  : M (list string) :=
  let time_up : M (list string) :=
    start <- read_state_start_time ;;
    elapsed_time_ms <- timer_get_time_since_ms start ;;
    md <- gets moving_duration_ms ;;
    if elapsed_time_ms <? md then ret notifications
    else
      modify (set_desired_state_field IDLE) ;;;
      __set_state notifications COOL_DOWN in
  d <- gets desired_state ;;
  st <- gets state ;;
  if negb (State_eqb d st) then
    match d with
    | MOVE_UP | MOVE_DOWN => __set_state notifications d
    | IDLE => __set_state notifications COOL_DOWN
    | COOL_DOWN => time_up
    end
  else time_up.

(** [Control.__process_cool_down_state]. *)
Definition __process_cool_down_state (notifications : list string)
  : M (list string) :=
  start <- read_state_start_time ;;
  elapsed_time_ms <- timer_get_time_since_ms start ;;
  cd <- gets cool_down_duration_ms ;;
  if elapsed_time_ms <? cd then ret notifications
  else
    modify (set_desired_state_field IDLE) ;;;
    __set_state notifications IDLE.

(** [Control.process]: the cases of the [match] are tried in order, the
    last one catching whatever the first three did not. *)
Definition process (notifications : list string) : M (list string) :=
  st <- gets state ;;
  if State_eqb st IDLE then __process_idle_state notifications
  else if State_eqb st MOVE_UP || State_eqb st MOVE_DOWN then
    __process_moving_states notifications
  else if State_eqb st COOL_DOWN then
    __process_cool_down_state notifications
  else
    logger_log ERROR "Unhandled state '%s'." [ArgStr (label st)] ;;;
    raise AssertionError.

End Control.

Arguments Ok {T Tm A} a w.
Arguments Raise {T Tm A} e w.

(** ** Histories of a control

    What can happen to a control once it is built: its owner calls one
    of the two public methods, or the clock moves. *)
Section History.

Context {T : Type} `{Tm : Timer T}.

Inductive Event : Type :=
| SetDesiredState (s : State)
| Process (notifications : list string)
| TimerSet (tm : T).

Definition apply_event (ev : Event) (w : World) : World :=
  match ev with
  | SetDesiredState s => world_of (set_desired_state s w)
  | Process notifications => world_of (process notifications w)
  | TimerSet tm => mkWorld (ctl w) tm (log w)
  end.

Fixpoint run (evs : list Event) (w : World) : World :=
  match evs with
  | [] => w
  | ev :: rest => run rest (apply_event ev w)
  end.

(** The time at which the current state was entered, recorded by an
    observer of the history: whenever an event changes [state], the
    observer notes what the timer showed during that event.  [entered]
    is the observer's note before [evs]. *)
Fixpoint entry_time (evs : list Event) (w : World)
         (entered : option Timestamp) : option Timestamp :=
  match evs with
  | [] => entered
  | ev :: rest =>
      let w' := apply_event ev w in
      entry_time rest w'
        (if State_eqb (state (ctl w')) (state (ctl w)) then entered
         else Some (get_current_time (timer w)))
  end.

(** Every [process] call of the history [evs], started in [w], is made
    while the timer shows less than [limit] ms since [since]. *)
Fixpoint process_calls_before (since : Timestamp) (limit : Z)
         (evs : list Event) (w : World) : Prop :=
  match evs with
  | [] => True
  | ev :: rest =>
      match ev with
      | Process _ => get_time_since_ms (timer w) since < limit
      | _ => True
      end
      /\ process_calls_before since limit rest (apply_event ev w)
  end.

(** The start time exists in every state that reads it. *)
Definition start_time_set (w : World) : Prop :=
  state (ctl w) <> IDLE -> state_start_time (ctl w) <> None.

End History.

(** ** A clock for examples *)

(** Modelled from the spec: [timing.Timer] is not in controls.py; the
    spec gives it a current time and the milliseconds elapsed since a past
    timestamp.  Here the clock is a reading in milliseconds, a timestamp
    is such a reading, and the time since a timestamp is the difference of
    the two. *)
#[export] Instance MsClock : Timer Z := {|
  Timestamp := Z;
  get_current_time now := now;
  get_time_since_ms now past := now - past
|}.

(** The control of the spec's end-to-end scenario, at time 0. *)
Definition legs : @World Z MsClock :=
  __init__ (NameType LEGS) 0 5000 2000 [].

(** It has been asked to move up and has started to, still at time 0. *)
Definition legs_raising : @World Z MsClock :=
  run [SetDesiredState MOVE_UP; Process []] legs.

(** It was left moving until time 5001, when [process] stopped it. *)
Definition legs_cooling : @World Z MsClock :=
  run [TimerSet 5001; Process []] legs_raising.

(** A world no history leads to: idle, with a cool down desired. *)
Definition legs_confused : @World Z MsClock :=
  mkWorld (set_desired_state_field COOL_DOWN (ctl legs)) 0 (log legs).

(** * Properties *)

Lemma State_eqb_eq (a b : State) : State_eqb a b = true <-> a = b.
Proof. destruct a, b; simpl; split; intro H; congruence. Qed.

Lemma State_eqb_refl (a : State) : State_eqb a a = true.
Proof. now destruct a. Qed.

Lemma State_eqb_neq (a b : State) : State_eqb a b = false <-> a <> b.
Proof.
  destruct (State_eqb a b) eqn:E.
  - apply State_eqb_eq in E. split; [discriminate | contradiction].
  - split; [| reflexivity]. intros _ H. apply State_eqb_eq in H. congruence.
Qed.

(** Unfolds a method call down to the monad's primitives. *)
Ltac unfold_methods :=
  unfold process, __process_idle_state, __process_moving_states,
    __process_cool_down_state, __set_state, set_desired_state,
    read_state_start_time, timer_get_current_time, timer_get_time_since_ms,
    logger_log, bind, gets, modify, ret, raise.

(** Splits a world into its fields and pushes the equations of the
    context through them. *)
Ltac open_world w :=
  destruct w as [[? ? ? ? ? ? ?] ? ?];
  cbn [ctl timer log logger state desired_state name moving_duration_ms
       cool_down_duration_ms state_start_time] in *;
  subst.

(** Runs a method on an opened world, as far as the tests on states
    decide it. *)
Ltac run_method :=
  unfold_methods;
  cbn [ctl timer log logger state desired_state name moving_duration_ms
       cool_down_duration_ms state_start_time State_eqb negb andb orb
       set_state_field set_desired_state_field set_state_start_time_field
       world_of].

Section Methods.

Context {T : Type} `{Tm : Timer T}.

(** C6: a control that has just been built, whatever its name, timer and
    durations, is in state [IDLE] and desires [IDLE]. *)
Theorem init_idle (name : Name) (tm : T) (moving cool_down : Z)
        (lg : list LogRecord) :
  state (ctl (__init__ name tm moving cool_down lg)) = IDLE
  /\ desired_state (ctl (__init__ name tm moving cool_down lg)) = IDLE.
Proof. split; reflexivity. Qed.

(** C4: [set_desired_state COOL_DOWN] changes nothing at all, whatever
    the state of the machine; with any other argument the call stores
    the argument in [desired_state] and leaves [state] (and the start
    time, the configuration and the timer) as they were. *)
Theorem set_desired_state_effect (w : World) (s : State) :
  (s = COOL_DOWN -> set_desired_state s w = Ok tt w)
  /\ (s <> COOL_DOWN ->
      exists w',
        set_desired_state s w = Ok tt w'
        /\ desired_state (ctl w') = s
        /\ state (ctl w') = state (ctl w)
        /\ state_start_time (ctl w') = state_start_time (ctl w)
        /\ name (ctl w') = name (ctl w)
        /\ moving_duration_ms (ctl w') = moving_duration_ms (ctl w)
        /\ cool_down_duration_ms (ctl w') = cool_down_duration_ms (ctl w)
        /\ timer w' = timer w).
Proof.
  split.
  - intros ->. reflexivity.
  - intros Hs. unfold set_desired_state.
    destruct (State_eqb s COOL_DOWN) eqn:E.
    + apply State_eqb_eq in E. contradiction.
    + run_method. eexists. split; [reflexivity |]. repeat split.
Qed.

(** C5: in [IDLE], one [process] call with [MOVE_UP] (resp. [MOVE_DOWN])
    desired enters that state and appends the one notification
    "Raising the <name>." (resp. "Lowering the <name>."); with [IDLE]
    desired it changes nothing and appends nothing. *)
Theorem process_idle (w : World) (ns : list string)
        (Hst : state (ctl w) = IDLE) :
  (desired_state (ctl w) = MOVE_UP ->
   exists w',
     process ns w
     = Ok (append ns ("Raising the " ++ Name_str (name (ctl w)) ++ ".")) w'
     /\ state (ctl w') = MOVE_UP
     /\ desired_state (ctl w') = MOVE_UP)
  /\ (desired_state (ctl w) = MOVE_DOWN ->
      exists w',
        process ns w
        = Ok (append ns ("Lowering the " ++ Name_str (name (ctl w)) ++ ".")) w'
        /\ state (ctl w') = MOVE_DOWN
        /\ desired_state (ctl w') = MOVE_DOWN)
  /\ (desired_state (ctl w) = IDLE -> process ns w = Ok ns w).
Proof.
  open_world w. repeat split; intros Hd; subst; run_method.
  - eexists. split; [reflexivity |]. split; reflexivity.
  - eexists. split; [reflexivity |]. split; reflexivity.
  - reflexivity.
Qed.

(** C7: in [IDLE], when the desired state is none of [IDLE], [MOVE_UP]
    and [MOVE_DOWN], [process] returns normally, keeps the state,
    appends nothing and puts [desired_state] back to [IDLE]; nothing else
    changes. *)
Theorem process_idle_fallback (w : World) (ns : list string)
        (Hst : state (ctl w) = IDLE)
        (Hidle : desired_state (ctl w) <> IDLE)
        (Hup : desired_state (ctl w) <> MOVE_UP)
        (Hdown : desired_state (ctl w) <> MOVE_DOWN) :
  process ns w
  = Ok ns (mkWorld (set_desired_state_field IDLE (ctl w)) (timer w) (log w))
  /\ state (set_desired_state_field IDLE (ctl w)) = IDLE
  /\ desired_state (set_desired_state_field IDLE (ctl w)) = IDLE.
Proof.
  open_world w.
  match goal with d : State |- _ => destruct d; try contradiction end.
  run_method. repeat split.
Qed.

(** C3: in a moving state, when the desired state is the other moving
    state, [process] enters it at once, without a cool down, and appends
    its "Raising the <name>." or "Lowering the <name>."; when the desired
    state is [IDLE], [process] enters [COOL_DOWN] and appends
    "<name> stopped.".  Nothing is asked of the time spent in the state,
    nor of the start time. *)
Theorem process_moving_override (w : World) (ns : list string) :
  (state (ctl w) = MOVE_DOWN -> desired_state (ctl w) = MOVE_UP ->
   exists w',
     process ns w
     = Ok (append ns ("Raising the " ++ Name_str (name (ctl w)) ++ ".")) w'
     /\ state (ctl w') = MOVE_UP
     /\ state_start_time (ctl w') = Some (get_current_time (timer w)))
  /\ (state (ctl w) = MOVE_UP -> desired_state (ctl w) = MOVE_DOWN ->
      exists w',
        process ns w
        = Ok (append ns ("Lowering the " ++ Name_str (name (ctl w)) ++ ".")) w'
        /\ state (ctl w') = MOVE_DOWN
        /\ state_start_time (ctl w') = Some (get_current_time (timer w)))
  /\ (state (ctl w) = MOVE_UP \/ state (ctl w) = MOVE_DOWN ->
      desired_state (ctl w) = IDLE ->
      exists w',
        process ns w
        = Ok (append ns (Name_str (name (ctl w)) ++ " stopped.")) w'
        /\ state (ctl w') = COOL_DOWN
        /\ state_start_time (ctl w') = Some (get_current_time (timer w))).
Proof.
  repeat split.
  - intros Hs Hd. open_world w. run_method.
    eexists. split; [reflexivity |]. split; reflexivity.
  - intros Hs Hd. open_world w. run_method.
    eexists. split; [reflexivity |]. split; reflexivity.
  - intros [Hs | Hs] Hd; open_world w; run_method;
      (eexists; split; [reflexivity |]; split; reflexivity).
Qed.

(** C1: in [MOVE_UP] (resp. [MOVE_DOWN]) with that same state desired,
    [process] changes nothing and appends nothing while the time since
    the state was entered is below [moving_duration_ms]; from
    [moving_duration_ms] on, it enters [COOL_DOWN], appends exactly
    "<name> stopped." and sets [desired_state] to [IDLE]. *)
Theorem process_moving_dwell (w : World) (ns : list string) (t0 : Timestamp)
        (Hmv : state (ctl w) = MOVE_UP \/ state (ctl w) = MOVE_DOWN)
        (Hd : desired_state (ctl w) = state (ctl w))
        (Ht : state_start_time (ctl w) = Some t0) :
  (get_time_since_ms (timer w) t0 < moving_duration_ms (ctl w) ->
   process ns w = Ok ns w)
  /\ (moving_duration_ms (ctl w) <= get_time_since_ms (timer w) t0 ->
      exists w',
        process ns w
        = Ok (append ns (Name_str (name (ctl w)) ++ " stopped.")) w'
        /\ state (ctl w') = COOL_DOWN
        /\ desired_state (ctl w') = IDLE
        /\ state_start_time (ctl w') = Some (get_current_time (timer w))).
Proof.
  split; intros He; destruct Hmv as [Hs | Hs]; open_world w;
    run_method;
    match goal with
    | |- context [?a <? ?b] => destruct (Z.ltb_spec a b); try lia
    end;
    try reflexivity;
    (eexists; split; [reflexivity |]; repeat split).
Qed.

End Methods.

(** ** Properties of histories *)

Section Histories.

Context {T : Type} `{Tm : Timer T}.

Lemma init_start_time_set name tm moving cool_down lg :
  start_time_set (__init__ name tm moving cool_down lg).
Proof. intros H. now contradiction H. Qed.

(** [set_desired_state] touches [desired_state] and the log only. *)
Lemma set_desired_state_frame (s : State) (w : World) :
  let w' := world_of (set_desired_state s w) in
  state (ctl w') = state (ctl w)
  /\ state_start_time (ctl w') = state_start_time (ctl w)
  /\ cool_down_duration_ms (ctl w') = cool_down_duration_ms (ctl w)
  /\ moving_duration_ms (ctl w') = moving_duration_ms (ctl w)
  /\ timer w' = timer w.
Proof.
  unfold set_desired_state.
  destruct (State_eqb s COOL_DOWN); run_method; repeat split.
Qed.

(** What one [process] call does to [state] and the start time: either
    both stay, or the state changes and the start time is what the timer
    shows. *)
Lemma process_stamp (ns : list string) (w : World) :
  let w' := world_of (process ns w) in
  (state (ctl w') = state (ctl w)
   /\ state_start_time (ctl w') = state_start_time (ctl w))
  \/ (state (ctl w') <> state (ctl w)
      /\ state_start_time (ctl w') = Some (get_current_time (timer w))).
Proof.
  open_world w.
  match goal with
  | st : State, d : State, o : option Timestamp |- _ =>
      destruct st, d, o
  end;
    run_method;
    try match goal with
        | |- context [?a <? ?b] => destruct (a <? b)
        end;
    cbn [world_of ctl state state_start_time];
    solve [left; split; reflexivity | right; split; [discriminate | reflexivity]].
Qed.

(** Where the start time exists when needed, [process] returns; what it
    appends, and the world it leaves, do not depend on the entries
    already in the sink. *)
Lemma process_returns (w : World) :
  start_time_set w ->
  exists (added : list string) (w' : World),
    (length added <= 1)%nat
    /\ forall ns, process ns w = Ok (ns ++ added)%list w'.
Proof.
  unfold start_time_set. open_world w.
  match goal with
  | st : State, d : State, o : option Timestamp |- _ =>
      destruct st, d, o
  end;
    intros Hset;
    try (exfalso; apply Hset; [discriminate | reflexivity]);
    run_method;
    try match goal with
        | |- context [?a <? ?b] => destruct (a <? b)
        end;
    unfold append;
    first
      [ exists []; eexists; split; [apply Nat.le_0_l |];
        intros ns; rewrite app_nil_r; reflexivity
      | eexists [_]; eexists; split; [apply Nat.le_refl |];
        intros ns; reflexivity ].
Qed.

Lemma apply_event_start_time_set (ev : Event) (w : World) :
  start_time_set w -> start_time_set (apply_event ev w).
Proof.
  unfold start_time_set. destruct ev as [s | ns | tm]; cbn [apply_event].
  - destruct (set_desired_state_frame s w) as (-> & -> & _). auto.
  - destruct (process_stamp ns w) as [(-> & ->) | (_ & ->)];
      [auto | discriminate].
  - auto.
Qed.

Lemma run_start_time_set (evs : list Event) (w : World) :
  start_time_set w -> start_time_set (run evs w).
Proof.
  revert w. induction evs as [| ev rest IH]; intros w Hw; cbn [run].
  - exact Hw.
  - apply IH, apply_event_start_time_set, Hw.
Qed.

(** The observer's note and the start time agree along a history. *)
Lemma run_entry_time (evs : list Event) (w : World)
      (entered : option Timestamp) :
  state_start_time (ctl w) = entered ->
  state_start_time (ctl (run evs w)) = entry_time evs w entered.
Proof.
  revert w entered.
  induction evs as [| ev rest IH]; intros w entered Hw;
    cbn [run entry_time].
  - exact Hw.
  - apply IH.
    assert (Hstep :
      (state (ctl (apply_event ev w)) = state (ctl w)
       /\ state_start_time (ctl (apply_event ev w))
          = state_start_time (ctl w))
      \/ (state (ctl (apply_event ev w)) <> state (ctl w)
          /\ state_start_time (ctl (apply_event ev w))
             = Some (get_current_time (timer w)))).
    { destruct ev as [s | ns | tm]; cbn [apply_event].
      - left. destruct (set_desired_state_frame s w) as (? & ? & _). auto.
      - apply process_stamp.
      - left. split; reflexivity. }
    destruct Hstep as [(Hs & Ht) | (Hs & Ht)].
    + rewrite Hs, State_eqb_refl. congruence.
    + apply State_eqb_neq in Hs. rewrite Hs. exact Ht.
Qed.

(** While every [process] call comes before the cool down is over, a
    control in [COOL_DOWN] stays there, with the start time and the
    duration it had. *)
Lemma run_cool_down (evs : list Event) (w : World)
      (t0 : Timestamp) (limit : Z) :
  state (ctl w) = COOL_DOWN ->
  state_start_time (ctl w) = Some t0 ->
  cool_down_duration_ms (ctl w) = limit ->
  process_calls_before t0 limit evs w ->
  state (ctl (run evs w)) = COOL_DOWN
  /\ state_start_time (ctl (run evs w)) = Some t0
  /\ cool_down_duration_ms (ctl (run evs w)) = limit.
Proof.
  revert w. induction evs as [| ev rest IH];
    intros w Hs Ht Hcd Hcalls; cbn [run].
  - auto.
  - destruct Hcalls as [Hev Hrest].
    apply IH; try exact Hrest; clear IH Hrest.
    + destruct ev as [s | ns | tm]; cbn [apply_event].
      * destruct (set_desired_state_frame s w) as (-> & _). exact Hs.
      * open_world w. run_method.
        apply Z.ltb_lt in Hev. rewrite Hev. reflexivity.
      * exact Hs.
    + destruct ev as [s | ns | tm]; cbn [apply_event].
      * destruct (set_desired_state_frame s w) as (_ & -> & _). exact Ht.
      * open_world w. run_method.
        apply Z.ltb_lt in Hev. rewrite Hev. reflexivity.
      * exact Ht.
    + destruct ev as [s | ns | tm]; cbn [apply_event].
      * destruct (set_desired_state_frame s w) as (_ & _ & -> & _).
        exact Hcd.
      * open_world w. run_method.
        apply Z.ltb_lt in Hev. rewrite Hev. reflexivity.
      * exact Hcd.
Qed.

End Histories.

Section Claims.

Context {T : Type} `{Tm : Timer T}.

(** C2: a control in [COOL_DOWN] stays there through any history of
    [set_desired_state] calls, clock changes and [process] calls made
    before [cool_down_duration_ms] has elapsed: at the end of it a
    [process] call made before the duration has elapsed changes nothing,
    and a [process] call made once it has elapsed enters [IDLE], appends
    nothing and sets [desired_state] to [IDLE], whatever was asked for in
    between. *)
Theorem cool_down_not_skipped (w : World) (t0 : Timestamp)
        (evs : list Event) (ns : list string)
        (Hst : state (ctl w) = COOL_DOWN)
        (Ht : state_start_time (ctl w) = Some t0)
        (Hearly : process_calls_before t0 (cool_down_duration_ms (ctl w)) evs w) :
  let w1 := run evs w in
  state (ctl w1) = COOL_DOWN
  /\ (get_time_since_ms (timer w1) t0 < cool_down_duration_ms (ctl w) ->
      process ns w1 = Ok ns w1)
  /\ (cool_down_duration_ms (ctl w) <= get_time_since_ms (timer w1) t0 ->
      exists w',
        process ns w1 = Ok ns w'
        /\ state (ctl w') = IDLE
        /\ desired_state (ctl w') = IDLE
        /\ state_start_time (ctl w') = Some (get_current_time (timer w1))).
Proof.
  intros w1.
  destruct (run_cool_down evs w t0 _ Hst Ht eq_refl Hearly)
    as (Hs1 & Ht1 & Hcd1).
  fold w1 in Hs1, Ht1, Hcd1. rewrite <- Hcd1. clearbody w1.
  split; [exact Hs1 |].
  open_world w1. split; intros He; run_method;
    match goal with
    | |- context [?a <? ?b] => destruct (Z.ltb_spec a b); try lia
    end.
  - reflexivity.
  - eexists. split; [reflexivity |]. repeat split.
Qed.

(** C8: a [process] call that changes [state] leaves in
    [state_start_time] what the timer shows at that call; and after any
    history of [set_desired_state] calls, [process] calls and clock
    changes since construction, a control that is not in [IDLE] has a
    start time, which is the time at which its current state was
    entered. *)
Theorem state_start_time_stamped (w0 : World) (ns : list string)
        (name : Name) (tm : T) (moving cool_down : Z) (lg : list LogRecord)
        (evs : list Event) :
  (state (ctl (world_of (process ns w0))) <> state (ctl w0) ->
   state_start_time (ctl (world_of (process ns w0)))
   = Some (get_current_time (timer w0)))
  /\ (let built := __init__ name tm moving cool_down lg in
      state (ctl (run evs built)) <> IDLE ->
      exists t,
        entry_time evs built None = Some t
        /\ state_start_time (ctl (run evs built)) = Some t).
Proof.
  split.
  - intros Hch. destruct (process_stamp ns w0) as [(Hs & _) | (_ & Hs)].
    + contradiction.
    + exact Hs.
  - intros built Hs.
    pose proof (run_entry_time evs built None eq_refl) as Hnote.
    pose proof (run_start_time_set evs built
                  (init_start_time_set name tm moving cool_down lg) Hs) as Hset.
    fold built in Hset.
    destruct (state_start_time (ctl (run evs built))) as [t |] eqn:E.
    + exists t. split; [symmetry; exact Hnote | reflexivity].
    + now contradiction Hset.
Qed.

(** C9: after any history of [set_desired_state] calls, [process] calls
    and clock changes since construction, [process] returns; in such a
    world the start time exists unless the state is [IDLE], the one state
    that does not read it; and in no world at all does [process] end in
    the assertion of its last case. *)
Theorem process_never_fails (name : Name) (tm : T) (moving cool_down : Z)
        (lg : list LogRecord) (evs : list Event) (ns : list string)
        (w0 : World) :
  let w := run evs (__init__ name tm moving cool_down lg) in
  (exists ns' w', process ns w = Ok ns' w')
  /\ (state (ctl w) <> IDLE -> exists t, state_start_time (ctl w) = Some t)
  /\ (forall w', process ns w0 <> Raise AssertionError w').
Proof.
  intros w.
  assert (Hset : start_time_set w)
    by apply run_start_time_set, init_start_time_set.
  repeat split.
  - destruct (process_returns w Hset) as (added & w' & _ & Hp).
    exists (ns ++ added)%list, w'. apply Hp.
  - intros Hs. destruct (state_start_time (ctl w)) as [t |] eqn:E.
    + now exists t.
    + exfalso. now apply (Hset Hs).
  - intros w'. open_world w0.
    match goal with
    | st : State, d : State, o : option Timestamp |- _ =>
        destruct st, d, o
    end;
      run_method;
      try match goal with
          | |- context [?a <? ?b] => destruct (a <? b)
          end;
      discriminate.
Qed.

(** C10: after any history since construction, one [process] call
    returns the sink it was given with at most one string appended; the
    entries already there are kept, in place, and neither the appended
    string nor the world the call leaves depends on them. *)
Theorem process_appends_at_most_one (name : Name) (tm : T)
        (moving cool_down : Z) (lg : list LogRecord) (evs : list Event) :
  exists (added : list string) (w' : World),
    (length added <= 1)%nat
    /\ forall ns,
         process ns (run evs (__init__ name tm moving cool_down lg))
         = Ok (ns ++ added)%list w'.
Proof.
  apply process_returns, run_start_time_set, init_start_time_set.
Qed.

End Claims.

(** ** The properties at work on the spec's scenario

    Moving duration 5000 ms, cool down 2000 ms, name "legs". *)

Example scenario_raise :
  exists w, process [] (run [SetDesiredState MOVE_UP] legs)
            = Ok ["Raising the legs."] w
            /\ state (ctl w) = MOVE_UP.
Proof. eexists. split; [lazy |]; reflexivity. Qed.

Example scenario_stop :
  exists w, process [] (run [TimerSet 5001] legs_raising)
            = Ok ["legs stopped."] w
            /\ state (ctl w) = COOL_DOWN.
Proof. eexists. split; [lazy |]; reflexivity. Qed.

Example scenario_idle_again :
  exists w, process [] (run [TimerSet 7002] legs_cooling) = Ok [] w
            /\ state (ctl w) = IDLE /\ desired_state (ctl w) = IDLE.
Proof. eexists. split; [lazy; reflexivity | split; reflexivity]. Qed.

Example start_time_missing :
  let c := set_desired_state_field MOVE_UP (set_state_field MOVE_UP (ctl legs)) in
  process [] (mkWorld c 0 [])
  = Raise (AttributeError "_Control__state_start_time") (mkWorld c 0 []).
Proof. reflexivity. Qed.

(** [process_moving_dwell] on the legs, 4999 ms and 5001 ms after they
    started to rise. *)
Lemma process_moving_dwell_witness :
  (state (ctl legs_raising) = MOVE_UP
   /\ desired_state (ctl legs_raising) = MOVE_UP
   /\ state_start_time (ctl legs_raising) = Some 0)
  /\ process ["x"] (run [TimerSet 4999] legs_raising)
     = Ok ["x"] (run [TimerSet 4999] legs_raising)
  /\ exists w',
       process ["x"] (run [TimerSet 5001] legs_raising)
       = Ok ["x"; "legs stopped."] w'
       /\ state (ctl w') = COOL_DOWN
       /\ desired_state (ctl w') = IDLE
       /\ state_start_time (ctl w') = Some 5001.
Proof.
  split; [repeat split | split].
  - apply (process_moving_dwell (run [TimerSet 4999] legs_raising) ["x"] 0
             (or_introl eq_refl) eq_refl eq_refl).
    vm_compute. reflexivity.
  - apply (process_moving_dwell (run [TimerSet 5001] legs_raising) ["x"] 0
             (or_introl eq_refl) eq_refl eq_refl).
    vm_compute. discriminate.
Defined.

(** [cool_down_not_skipped] on the legs cooling down since 5001: asked
    to move, processed at 6000, asked for a cool down, and processed again
    at 7000 and at 7002. *)
Lemma cool_down_not_skipped_witness :
  let evs := [SetDesiredState MOVE_UP; TimerSet 6000; Process [];
              SetDesiredState COOL_DOWN; SetDesiredState MOVE_DOWN] in
  (state (ctl legs_cooling) = COOL_DOWN
   /\ state_start_time (ctl legs_cooling) = Some 5001
   /\ process_calls_before 5001 2000 evs legs_cooling)
  /\ state (ctl (run evs legs_cooling)) = COOL_DOWN
  /\ process [] (run (evs ++ [TimerSet 7000]) legs_cooling)
     = Ok [] (run (evs ++ [TimerSet 7000]) legs_cooling)
  /\ exists w',
       process [] (run (evs ++ [TimerSet 7002]) legs_cooling) = Ok [] w'
       /\ state (ctl w') = IDLE
       /\ desired_state (ctl w') = IDLE
       /\ state_start_time (ctl w') = Some 7002.
Proof.
  intros evs.
  assert (Hearly : forall tm,
            process_calls_before 5001 2000 (evs ++ [TimerSet tm]) legs_cooling)
    by (intros tm; vm_compute; repeat split).
  split; [| split; [| split]].
  - repeat split.
  - apply (cool_down_not_skipped legs_cooling 5001 evs []
             eq_refl eq_refl).
    vm_compute. repeat split.
  - apply (cool_down_not_skipped legs_cooling 5001 (evs ++ [TimerSet 7000]) []
             eq_refl eq_refl (Hearly 7000)).
    vm_compute. reflexivity.
  - apply (cool_down_not_skipped legs_cooling 5001 (evs ++ [TimerSet 7002]) []
             eq_refl eq_refl (Hearly 7002)).
    vm_compute. discriminate.
Defined.

(** [process_moving_override] on the rising legs, asked at once to go
    down, or to stop. *)
Lemma process_moving_override_witness :
  (exists w',
     process [] (run [SetDesiredState MOVE_DOWN] legs_raising)
     = Ok ["Lowering the legs."] w'
     /\ state (ctl w') = MOVE_DOWN
     /\ state_start_time (ctl w') = Some 0)
  /\ exists w',
       process [] (run [SetDesiredState IDLE] legs_raising)
       = Ok ["legs stopped."] w'
       /\ state (ctl w') = COOL_DOWN
       /\ state_start_time (ctl w') = Some 0.
Proof.
  split.
  - apply (process_moving_override
             (run [SetDesiredState MOVE_DOWN] legs_raising) []);
      reflexivity.
  - apply (process_moving_override
             (run [SetDesiredState IDLE] legs_raising) []);
      [left |]; reflexivity.
Defined.

(** [set_desired_state_effect] on the rising legs. *)
Lemma set_desired_state_effect_witness :
  set_desired_state COOL_DOWN legs_raising = Ok tt legs_raising
  /\ exists w',
       set_desired_state MOVE_DOWN legs_raising = Ok tt w'
       /\ desired_state (ctl w') = MOVE_DOWN
       /\ state (ctl w') = MOVE_UP.
Proof.
  split.
  - apply (set_desired_state_effect legs_raising COOL_DOWN). reflexivity.
  - destruct (proj2 (set_desired_state_effect legs_raising MOVE_DOWN))
      as (w' & Hcall & Hd & Hs & _).
    + discriminate.
    + exists w'. repeat split; assumption.
Defined.

(** [process_idle] on the idle legs, asked to rise, asked to go down and
    not asked anything. *)
Lemma process_idle_witness :
  (exists w',
     process [] (run [SetDesiredState MOVE_UP] legs)
     = Ok ["Raising the legs."] w'
     /\ state (ctl w') = MOVE_UP /\ desired_state (ctl w') = MOVE_UP)
  /\ (exists w',
        process [] (run [SetDesiredState MOVE_DOWN] legs)
        = Ok ["Lowering the legs."] w'
        /\ state (ctl w') = MOVE_DOWN /\ desired_state (ctl w') = MOVE_DOWN)
  /\ process [] legs = Ok [] legs.
Proof.
  split; [| split].
  - apply (process_idle (run [SetDesiredState MOVE_UP] legs) [] eq_refl).
    reflexivity.
  - apply (process_idle (run [SetDesiredState MOVE_DOWN] legs) [] eq_refl).
    reflexivity.
  - apply (process_idle legs [] eq_refl). reflexivity.
Defined.

(** [process_idle_fallback] on idle legs that desire a cool down. *)
Lemma process_idle_fallback_witness :
  (state (ctl legs_confused) = IDLE
   /\ desired_state (ctl legs_confused) = COOL_DOWN)
  /\ process ["x"] legs_confused = Ok ["x"] legs.
Proof.
  split; [split; reflexivity |].
  apply (process_idle_fallback legs_confused ["x"] eq_refl);
    discriminate.
Defined.

(** [state_start_time_stamped] on the legs: started at 0, stopped at
    5001. *)
Lemma state_start_time_stamped_witness :
  state_start_time
    (ctl (world_of (process [] (run [SetDesiredState MOVE_UP; TimerSet 3] legs))))
  = Some 3
  /\ exists t,
       entry_time [SetDesiredState MOVE_UP; Process []; TimerSet 5001; Process []]
                  legs None = Some t
       /\ state_start_time (ctl legs_cooling) = Some t.
Proof.
  split.
  - apply (state_start_time_stamped
             (run [SetDesiredState MOVE_UP; TimerSet 3] legs) []
             (NameType LEGS) 0 5000 2000 [] []).
    discriminate.
  - apply (state_start_time_stamped legs []
             (NameType LEGS) 0 5000 2000 []
             [SetDesiredState MOVE_UP; Process []; TimerSet 5001; Process []]).
    discriminate.
Defined.

(** [process_never_fails] on the rising legs. *)
Lemma process_never_fails_witness :
  (exists ns' w', process [] legs_raising = Ok ns' w')
  /\ exists t, state_start_time (ctl legs_raising) = Some t.
Proof.
  destruct (process_never_fails (NameType LEGS) 0 5000 2000 []
              [SetDesiredState MOVE_UP; Process []] [] legs)
    as (Hret & Hset & _).
  split.
  - exact Hret.
  - apply Hset. discriminate.
Defined.

(** * Further properties of the control *)

(** Goes through the states, the desired states and the start time of an
    opened world, and through the outcome of the test on the elapsed
    time. *)
Ltac each_process_case :=
  match goal with
  | st : State, d : State, o : option Timestamp |- _ => destruct st, d, o
  end;
  run_method;
  try match goal with
      | |- context [?a <? ?b] => destruct (a <? b)
      end;
  cbn [world_of ctl timer log logger state desired_state name
       moving_duration_ms cool_down_duration_ms state_start_time
       set_state_field set_desired_state_field set_state_start_time_field
       State_eqb].

Section Enumerations.

(** X11: two states have the same label exactly when they are the same
    state, so a label in the log names one state. *)
Theorem label_distinct (a b : State) :
  String.eqb (label a) (label b) = State_eqb a b.
Proof. destruct a, b; reflexivity. Qed.

(** X12: the values of the well-known control names are pairwise
    different, as [enum.unique] demands: two names with the same value
    are the same name. *)
Theorem Type_value_unique (a b : Type_) :
  String.eqb (Type_value a) (Type_value b) = true <-> a = b.
Proof.
  split.
  - destruct a, b; simpl; intros H; try reflexivity; discriminate H.
  - intros ->. apply String.eqb_refl.
Qed.

End Enumerations.

Section Transitions.

Context {T : Type} `{Tm : Timer T}.

(** The states one event can lead to. *)
Lemma apply_event_graph (ev : Event) (w : World) :
  let s' := state (ctl (apply_event ev w)) in
  match state (ctl w) with
  | IDLE => s' = IDLE \/ s' = MOVE_UP \/ s' = MOVE_DOWN
  | MOVE_UP | MOVE_DOWN => s' = MOVE_UP \/ s' = MOVE_DOWN \/ s' = COOL_DOWN
  | COOL_DOWN => s' = COOL_DOWN \/ s' = IDLE
  end.
Proof.
  assert (Hsame : forall s : State,
            match s with
            | IDLE => s = IDLE \/ s = MOVE_UP \/ s = MOVE_DOWN
            | MOVE_UP | MOVE_DOWN =>
                s = MOVE_UP \/ s = MOVE_DOWN \/ s = COOL_DOWN
            | COOL_DOWN => s = COOL_DOWN \/ s = IDLE
            end) by (intros []; auto).
  destruct ev as [s | ns | tm]; cbn [apply_event].
  - destruct (set_desired_state_frame s w) as (-> & _). apply Hsame.
  - clear Hsame. open_world w. each_process_case; auto.
  - apply Hsame.
Qed.

(** X1: whatever happens to a control (a [set_desired_state] call, a
    [process] call that returns or raises, a clock change), an idle
    control stays idle or starts to move, a moving control keeps moving,
    reverses or cools down, and a cooling control keeps cooling or
    becomes idle. *)
Theorem event_transitions (ev : Event) (w : World) :
  let s' := state (ctl (apply_event ev w)) in
  match state (ctl w) with
  | IDLE => s' = IDLE \/ s' = MOVE_UP \/ s' = MOVE_DOWN
  | MOVE_UP | MOVE_DOWN => s' = MOVE_UP \/ s' = MOVE_DOWN \/ s' = COOL_DOWN
  | COOL_DOWN => s' = COOL_DOWN \/ s' = IDLE
  end.
Proof. exact (apply_event_graph ev w). Qed.

(** X13: a control that moves and is idle later has cooled down in
    between: a history that takes it from a moving state to [IDLE] has a
    beginning that takes it to [COOL_DOWN]. *)
Theorem cool_down_after_motion (evs : list Event) (w : World)
        (Hmv : state (ctl w) = MOVE_UP \/ state (ctl w) = MOVE_DOWN)
        (Hidle : state (ctl (run evs w)) = IDLE) :
  exists pre post : list Event,
    evs = (pre ++ post)%list /\ state (ctl (run pre w)) = COOL_DOWN.
Proof.
  revert w Hmv Hidle. induction evs as [| ev rest IH];
    intros w Hmv Hidle; cbn [run] in Hidle.
  - destruct Hmv as [H | H]; rewrite H in Hidle; discriminate Hidle.
  - pose proof (apply_event_graph ev w) as Hstep. cbv zeta in Hstep.
    assert (Hnext : (state (ctl (apply_event ev w)) = MOVE_UP
                     \/ state (ctl (apply_event ev w)) = MOVE_DOWN)
                    \/ state (ctl (apply_event ev w)) = COOL_DOWN).
    { destruct Hmv as [H | H]; rewrite H in Hstep;
        destruct Hstep as [? | [? | ?]]; auto. }
    destruct Hnext as [Hmv' | Hcool].
    + destruct (IH _ Hmv' Hidle) as (pre & post & -> & Hpre).
      exists (ev :: pre), post. split; [reflexivity | exact Hpre].
    + exists [ev], rest. split; [reflexivity | exact Hcool].
Qed.

(** X14: a control that cools down and moves later has been idle in
    between: a history that takes it from [COOL_DOWN] to a moving state
    has a beginning that takes it to [IDLE]. *)
Theorem idle_before_motion (evs : list Event) (w : World)
        (Hcool : state (ctl w) = COOL_DOWN)
        (Hmv : state (ctl (run evs w)) = MOVE_UP
               \/ state (ctl (run evs w)) = MOVE_DOWN) :
  exists pre post : list Event,
    evs = (pre ++ post)%list /\ state (ctl (run pre w)) = IDLE.
Proof.
  revert w Hcool Hmv. induction evs as [| ev rest IH];
    intros w Hcool Hmv; cbn [run] in Hmv.
  - destruct Hmv as [H | H]; rewrite Hcool in H; discriminate H.
  - pose proof (apply_event_graph ev w) as Hstep. cbv zeta in Hstep.
    rewrite Hcool in Hstep. destruct Hstep as [Hcool' | Hidle].
    + destruct (IH _ Hcool' Hmv) as (pre & post & -> & Hpre).
      exists (ev :: pre), post. split; [reflexivity | exact Hpre].
    + exists [ev], rest. split; [reflexivity | exact Hidle].
Qed.

(** One event keeps [desired_state] away from [COOL_DOWN]. *)
Lemma apply_event_desired (ev : Event) (w : World) :
  State_eqb (desired_state (ctl w)) COOL_DOWN = false ->
  State_eqb (desired_state (ctl (apply_event ev w))) COOL_DOWN = false.
Proof.
  destruct ev as [s | ns | tm]; cbn [apply_event].
  - unfold set_desired_state. destruct (State_eqb s COOL_DOWN) eqn:E.
    + intros H. exact H.
    + intros _. run_method. exact E.
  - open_world w. each_process_case; intros H;
      solve [reflexivity | discriminate H].
  - intros H. exact H.
Qed.

Lemma run_desired (evs : list Event) (w : World) :
  State_eqb (desired_state (ctl w)) COOL_DOWN = false ->
  State_eqb (desired_state (ctl (run evs w))) COOL_DOWN = false.
Proof.
  revert w. induction evs as [| ev rest IH]; intros w Hw; cbn [run].
  - exact Hw.
  - apply IH, apply_event_desired, Hw.
Qed.

(** X2: after any history of [set_desired_state] calls (with any
    argument, [COOL_DOWN] too), [process] calls and clock changes since
    construction, [desired_state] is not [COOL_DOWN]. *)
Theorem desired_state_never_cool_down (name : Name) (tm : T)
        (moving cool_down : Z) (lg : list LogRecord) (evs : list Event) :
  State_eqb
    (desired_state (ctl (run evs (__init__ name tm moving cool_down lg))))
    COOL_DOWN
  = false.
Proof. apply run_desired. reflexivity. Qed.

(** With no cool down desired, [process] leaves a control that is not in
    [COOL_DOWN] with its desire fulfilled, and one that it has put in
    [COOL_DOWN] with [IDLE] desired. *)
Lemma process_settles (ns : list string) (w : World) :
  State_eqb (desired_state (ctl w)) COOL_DOWN = false ->
  start_time_set w ->
  let w' := world_of (process ns w) in
  match state (ctl w') with
  | COOL_DOWN => state (ctl w) = COOL_DOWN \/ desired_state (ctl w') = IDLE
  | s' => desired_state (ctl w') = s'
  end.
Proof.
  unfold start_time_set. open_world w.
  each_process_case; intros Hd Hset;
    try discriminate Hd;
    try (exfalso; apply Hset; [discriminate | reflexivity]);
    auto.
Qed.

(** X3: after any history since construction, a [process] call leaves
    nothing pending outside a cool down: if the control is then idle or
    moving, [desired_state] equals [state]; if the call has put it in
    [COOL_DOWN], [desired_state] is [IDLE]. *)
Theorem process_settles_request (name : Name) (tm : T)
        (moving cool_down : Z) (lg : list LogRecord) (evs : list Event)
        (ns : list string) :
  let w := run evs (__init__ name tm moving cool_down lg) in
  let w' := world_of (process ns w) in
  match state (ctl w') with
  | COOL_DOWN => state (ctl w) = COOL_DOWN \/ desired_state (ctl w') = IDLE
  | s' => desired_state (ctl w') = s'
  end.
Proof.
  intros w. apply process_settles.
  - apply run_desired. reflexivity.
  - apply run_start_time_set, init_start_time_set.
Qed.

(** X4: the sink tells the transition.  A [process] call that returns
    appends nothing when it keeps the state or enters [IDLE], and
    otherwise appends the one sentence of the state it enters. *)
Theorem process_notification (ns ns' : list string) (w w' : World)
        (Hcall : process ns w = Ok ns' w') :
  ns' =
  if State_eqb (state (ctl w')) (state (ctl w)) then ns
  else
    match state (ctl w') with
    | IDLE => ns
    | MOVE_UP => append ns ("Raising the " ++ Name_str (name (ctl w)) ++ ".")
    | MOVE_DOWN => append ns ("Lowering the " ++ Name_str (name (ctl w)) ++ ".")
    | COOL_DOWN => append ns (Name_str (name (ctl w)) ++ " stopped.")
    end.
Proof.
  revert Hcall. open_world w. each_process_case; intros Hcall;
    try discriminate Hcall;
    injection Hcall as <- <-; reflexivity.
Qed.


(** X9: [process] raises in one situation only: the start time is
    missing and the state is one that reads it ([COOL_DOWN], or a moving
    state that is also the desired state, or a moving state with
    [COOL_DOWN] desired).  It then raises [AttributeError] and has changed
    nothing. *)
Theorem process_raises (ns : list string) (w : World) :
  (forall e w', process ns w = Raise e w' ->
     e = AttributeError "_Control__state_start_time" /\ w' = w)
  /\ (process ns w = Raise (AttributeError "_Control__state_start_time") w
      <-> state_start_time (ctl w) = None
          /\ (state (ctl w) = COOL_DOWN
              \/ (state (ctl w) = MOVE_UP \/ state (ctl w) = MOVE_DOWN)
                 /\ (desired_state (ctl w) = state (ctl w)
                     \/ desired_state (ctl w) = COOL_DOWN))).
Proof.
  split.
  - intros e w'. open_world w. each_process_case; intros H;
      try discriminate H; injection H as <- <-; split; reflexivity.
  - open_world w. each_process_case; split;
      try (intros H; discriminate H);
      try (intros _; split; [reflexivity |]; auto; fail);
      try (intros (H & _); discriminate H);
      try reflexivity;
      try (intros (_ & [H | ([H | H] & [H' | H'])]); discriminate).
Qed.

(** With no cool down desired and a start time where one is needed, a
    [process] call that keeps the state keeps everything. *)
Lemma process_dwell (ns : list string) (w : World) :
  State_eqb (desired_state (ctl w)) COOL_DOWN = false ->
  start_time_set w ->
  state (ctl (world_of (process ns w))) = state (ctl w) ->
  process ns w = Ok ns w.
Proof.
  unfold start_time_set. open_world w.
  each_process_case; intros Hd Hset Hs;
    try discriminate Hd;
    try discriminate Hs;
    try (exfalso; apply Hset; [discriminate | reflexivity]);
    reflexivity.
Qed.

(** X10: after any history since construction, a [process] call that
    does not change the state changes nothing at all: not the desired
    state, not the start time, not the log, not the sink. *)
Theorem process_dwell_no_effect (name : Name) (tm : T)
        (moving cool_down : Z) (lg : list LogRecord) (evs : list Event)
        (ns : list string) :
  let w := run evs (__init__ name tm moving cool_down lg) in
  state (ctl (world_of (process ns w))) = state (ctl w) ->
  process ns w = Ok ns w.
Proof.
  intros w. apply process_dwell.
  - apply run_desired. reflexivity.
  - apply run_start_time_set, init_start_time_set.
Qed.

End Transitions.

Section Configuration.

Context {T : Type} `{Tm : Timer T}.

(** One event keeps what the constructor was given. *)
Lemma apply_event_configuration (ev : Event) (w : World) :
  let w' := apply_event ev w in
  name (ctl w') = name (ctl w)
  /\ moving_duration_ms (ctl w') = moving_duration_ms (ctl w)
  /\ cool_down_duration_ms (ctl w') = cool_down_duration_ms (ctl w)
  /\ logger (ctl w') = logger (ctl w).
Proof.
  destruct ev as [s | ns | tm]; cbn [apply_event].
  - unfold set_desired_state.
    destruct (State_eqb s COOL_DOWN); run_method; repeat split.
  - open_world w. each_process_case; repeat split.
  - repeat split.
Qed.

(** X7: the name the [name] property returns, the two durations and the
    logger are, after any history, those the control was built with: no
    method changes them. *)
Theorem configuration_fixed (nm : Name) (tm : T) (moving cool_down : Z)
        (lg : list LogRecord) (evs : list Event) :
  let w := run evs (__init__ nm tm moving cool_down lg) in
  name (ctl w) = nm
  /\ moving_duration_ms (ctl w) = moving
  /\ cool_down_duration_ms (ctl w) = cool_down
  /\ logger (ctl w) = "sandman.control." ++ Name_str nm.
Proof.
  cbv zeta.
  generalize (__init__ nm tm moving cool_down lg)
    (eq_refl : name (ctl (__init__ nm tm moving cool_down lg)) = nm)
    (eq_refl : moving_duration_ms (ctl (__init__ nm tm moving cool_down lg))
               = moving)
    (eq_refl : cool_down_duration_ms (ctl (__init__ nm tm moving cool_down lg))
               = cool_down)
    (eq_refl : logger (ctl (__init__ nm tm moving cool_down lg))
               = "sandman.control." ++ Name_str nm).
  induction evs as [| ev rest IH]; intros w Hn Hm Hc Hl; cbn [run].
  - auto.
  - destruct (apply_event_configuration ev w) as (En & Em & Ec & El).
    apply IH; congruence.
Qed.




(** X8: of several [set_desired_state] calls in a row the last one whose
    argument is not [COOL_DOWN] decides; if there is none, [desired_state]
    is what it was. *)
Theorem set_desired_state_last_wins (reqs : list State) (w : World) :
  desired_state (ctl (run (map SetDesiredState reqs) w))
  = fold_left (fun d s => if State_eqb s COOL_DOWN then d else s)
              reqs (desired_state (ctl w)).
Proof.
  revert w. induction reqs as [| s rest IH]; intros w;
    cbn [map run fold_left apply_event].
  - reflexivity.
  - rewrite IH. f_equal. unfold set_desired_state.
    destruct (State_eqb s COOL_DOWN); reflexivity.
Qed.

End Configuration.

(** ** The further properties on the legs *)

(** [Type_value_unique] on "legs". *)
Lemma Type_value_unique_witness :
  String.eqb (Type_value LEGS) (Type_value LEGS) = true /\ LEGS = LEGS.
Proof.
  split; [reflexivity |].
  apply (proj1 (Type_value_unique LEGS LEGS)). reflexivity.
Defined.

(** [process_notification] on the rising legs asked to go down. *)
Lemma process_notification_witness :
  let w := run [SetDesiredState MOVE_DOWN] legs_raising in
  exists w',
    process ["x"] w = Ok ["x"; "Lowering the legs."] w'
    /\ ["x"; "Lowering the legs."]
       = (if State_eqb (state (ctl w')) (state (ctl w)) then ["x"]
          else
            match state (ctl w') with
            | IDLE => ["x"]
            | MOVE_UP => append ["x"] ("Raising the " ++ Name_str (name (ctl w)) ++ ".")
            | MOVE_DOWN => append ["x"] ("Lowering the " ++ Name_str (name (ctl w)) ++ ".")
            | COOL_DOWN => append ["x"] (Name_str (name (ctl w)) ++ " stopped.")
            end).
Proof.
  intros w. exists (world_of (process ["x"] w)).
  assert (Hcall : process ["x"] w
                  = Ok ["x"; "Lowering the legs."] (world_of (process ["x"] w)))
    by reflexivity.
  split; [exact Hcall |].
  exact (process_notification ["x"] ["x"; "Lowering the legs."] w
           (world_of (process ["x"] w)) Hcall).
Defined.

(** [process_raises] on legs that move without a start time, and on the
    rising legs, which have one. *)
Lemma process_raises_witness :
  let c := set_desired_state_field MOVE_UP (set_state_field MOVE_UP (ctl legs)) in
  process [] (mkWorld c 0 [])
  = Raise (AttributeError "_Control__state_start_time") (mkWorld c 0 [])
  /\ forall e w', process [] legs_raising = Raise e w' -> w' = legs_raising.
Proof.
  intros c. split.
  - apply (proj2 (process_raises [] (mkWorld c 0 []))).
    split; [reflexivity |]. right. split; left; reflexivity.
  - intros e w' H.
    apply (proj1 (process_raises [] legs_raising) e w' H).
Defined.

(** [process_dwell_no_effect] on the legs, 10 ms after they started to
    rise. *)
Lemma process_dwell_no_effect_witness :
  let evs := [SetDesiredState MOVE_UP; Process []; TimerSet 10] in
  state (ctl (world_of (process ["x"] (run evs legs)))) = MOVE_UP
  /\ process ["x"] (run evs legs) = Ok ["x"] (run evs legs).
Proof.
  intros evs. split; [reflexivity |].
  apply (process_dwell_no_effect (NameType LEGS) 0 5000 2000 [] evs ["x"]).
  reflexivity.
Defined.

(** [cool_down_after_motion] on the rising legs, left alone until 5001
    and then until 7002. *)
Lemma cool_down_after_motion_witness :
  let evs := [TimerSet 5001; Process []; TimerSet 7002; Process []] in
  (state (ctl legs_raising) = MOVE_UP
   /\ state (ctl (run evs legs_raising)) = IDLE)
  /\ exists pre post : list Event,
       evs = (pre ++ post)%list
       /\ state (ctl (run pre legs_raising)) = COOL_DOWN.
Proof.
  intros evs. split; [split; reflexivity |].
  apply (cool_down_after_motion evs legs_raising (or_introl eq_refl)).
  reflexivity.
Defined.

(** [idle_before_motion] on the cooling legs, asked to rise during the
    cool down and again after it. *)
Lemma idle_before_motion_witness :
  let evs := [SetDesiredState MOVE_UP; TimerSet 7002; Process [];
              SetDesiredState MOVE_UP; Process []] in
  (state (ctl legs_cooling) = COOL_DOWN
   /\ state (ctl (run evs legs_cooling)) = MOVE_UP)
  /\ exists pre post : list Event,
       evs = (pre ++ post)%list
       /\ state (ctl (run pre legs_cooling)) = IDLE.
Proof.
  intros evs. split; [split; reflexivity |].
  apply (idle_before_motion evs legs_cooling eq_refl).
  left. reflexivity.
Defined.
